(** * Datalake_etl.py: a shallow embedding of the Spark ETL pipeline

    The pipeline [main] runs [process_song_data] and then [process_log_data].
    A Spark DataFrame is modelled as a list of column names (its analysed
    schema) together with its rows.  Spark is lazy: analysis errors
    (unresolved or ambiguous column names) are raised eagerly by the
    transformation that causes them, while errors raised while computing
    rows (a failing Python UDF) only surface when an action, here a write,
    forces the rows.  The rows of a DataFrame are therefore a [result].

    Python statements run in a state-and-exception monad whose state is the
    output store: the tables written so far, by path.

    The semantics followed are those of the stack the script is written
    for: Spark 2.4 (the Hadoop 2.7 build that matches the requested
    [hadoop-aws:2.7.0]) with its default settings, Python 3.6 or later,
    and, for the timestamp UDF, Python workers and a Spark session whose
    time zone is UTC. *)

From Stdlib Require Import String Ascii List ZArith Bool Lia.
From Stdlib Require QArith.
Import ListNotations.
Open Scope string_scope.
Open Scope Z_scope.

Module Etl.

(** ** Values, rows, exceptions *)

(** A Spark value.  A finite double is held as the rational it denotes
    (the sign of a zero is not modelled). *)
Inductive value : Type :=
| VNull
| VStr (s : string)
| VInt (z : Z)
| VDbl (q : QArith_base.Q)
| VNaN
| VInf (neg : bool)
| VTs (us : Z).  (** a TimestampType value: microseconds since the epoch, UTC *)

(** Equality of values as Spark compares them in [dropDuplicates]
    (NaN equals NaN there). *)
Definition value_eqb (a b : value) : bool :=
  match a, b with
  | VNull, VNull => true
  | VStr s, VStr t => String.eqb s t
  | VInt x, VInt y => Z.eqb x y
  | VDbl p, VDbl q => QArith_base.Qeq_bool p q
  | VNaN, VNaN => true
  | VInf x, VInf y => Bool.eqb x y
  | VTs x, VTs y => Z.eqb x y
  | _, _ => false
  end.

Definition row := list value.

Inductive exn : Type :=
| AnalysisException (msg : string)
| AttributeError (msg : string)
| NameError (name : string)
| TypeError (msg : string)
| ValueError (msg : string)
| OverflowError (msg : string)
| OSError (msg : string).

Inductive result (A : Type) : Type :=
| Ok (a : A)
| Raise (e : exn).
Arguments Ok {A} a.
Arguments Raise {A} e.

Definition rbind {A B} (m : result A) (k : A -> result B) : result B :=
  match m with Ok a => k a | Raise e => Raise e end.

Definition rmap {A B} (f : A -> B) (m : result A) : result B :=
  rbind m (fun a => Ok (f a)).

Notation "'let?' x := m 'in' k" := (rbind m (fun x => k))
  (at level 200, x name, m at level 100, k at level 200).

(** [mapM] over a list, stopping at the first exception. *)
Fixpoint rmapM {A B} (f : A -> result B) (l : list A) : result (list B) :=
  match l with
  | [] => Ok []
  | x :: l' => let? y := f x in let? ys := rmapM f l' in Ok (y :: ys)
  end.

(** Decimal text of an integer, as Python's [str] and Java's [toString]
    write it. *)
Fixpoint digits_aux (fuel : nat) (n : Z) (acc : string) : string :=
  match fuel with
  | O => acc
  | S f =>
      let acc' := String (ascii_of_nat (48 + Z.to_nat (n mod 10))) acc in
      if n <? 10 then acc' else digits_aux f (n / 10) acc'
  end.

Definition z_text (z : Z) : string :=
  let d := digits_aux (S (Z.to_nat (Z.log2 (Z.abs z)))) (Z.abs z) "" in
  if z <? 0 then "-" ++ d else d.

(** ** Column names

    Spark resolves column names case-insensitively
    ([spark.sql.caseSensitive] is false by default). *)

Definition lower_ascii (c : ascii) : ascii :=
  let n := nat_of_ascii c in
  if ((65 <=? n) && (n <=? 90))%nat then ascii_of_nat (n + 32)%nat else c.

Fixpoint lower (s : string) : string :=
  match s with
  | EmptyString => EmptyString
  | String c s' => String (lower_ascii c) (lower s')
  end.

Definition name_eqb (a b : string) : bool := String.eqb (lower a) (lower b).

(** Indices of the schema columns called [c]. *)
Fixpoint positions (sch : list string) (c : string) (i : nat) : list nat :=
  match sch with
  | [] => []
  | x :: sch' =>
      if name_eqb x c then i :: positions sch' c (S i) else positions sch' c (S i)
  end.

Definition resolve (sch : list string) (c : string) : result nat :=
  match positions sch c 0 with
  | [i] => Ok i
  | [] => Raise (AnalysisException ("cannot resolve '" ++ c ++ "'"))
  | _ => Raise (AnalysisException ("Reference '" ++ c ++ "' is ambiguous"))
  end.

(** Whether two names of a list are equal up to case. *)
Fixpoint has_case_dup (l : list string) : bool :=
  match l with
  | [] => false
  | x :: l' => existsb (name_eqb x) l' || has_case_dup l'
  end.

(** ** DataFrames *)

Record frame : Type := mkFrame {
  schema : list string;
  rows : result (list row)
}.

Definition project (idx : list nat) (r : row) : row :=
  map (fun i => nth i r VNull) idx.

(** [df.select(cols)]: each output column keeps the name of the column it
    resolves to. *)
Definition select (df : frame) (cols : list string) : result frame :=
  let? idx := rmapM (resolve (schema df)) cols in
  Ok (mkFrame (map (fun i => nth i (schema df) "") idx)
              (rmap (map (project idx)) (rows df))).

(** [df.selectExpr(exprs)] for expressions of the forms [c] and [c AS a]
    (the keyword in any case). *)
Fixpoint split_words_aux (s : string) (cur : string) : list string :=
  match s with
  | EmptyString => if String.eqb cur "" then [] else [cur]
  | String c s' =>
      if Ascii.eqb c " "%char
      then (if String.eqb cur "" then [] else [cur]) ++ split_words_aux s' ""
      else split_words_aux s' (cur ++ String c EmptyString)
  end.

Definition words (s : string) : list string := split_words_aux s "".

Definition parse_expr (e : string) : result (string * option string) :=
  match words e with
  | [c] => Ok (c, None)
  | [c; kw; a] =>
      if name_eqb kw "as" then Ok (c, Some a)
      else Raise (AnalysisException ("cannot parse '" ++ e ++ "'"))
  | _ => Raise (AnalysisException ("cannot parse '" ++ e ++ "'"))
  end.

(** [df.select(col(c).alias(a), c', ...)]: an aliased column is named by
    its alias, any other keeps the name of the column it resolves to. *)
Definition select_alias (df : frame) (ps : list (string * option string))
  : result frame :=
  let? idx := rmapM (fun p => resolve (schema df) (fst p)) ps in
  Ok (mkFrame (map (fun ip => match snd (snd ip) with
                              | Some a => a
                              | None => nth (fst ip) (schema df) ""
                              end) (combine idx ps))
              (rmap (map (project idx)) (rows df))).

Definition selectExpr (df : frame) (exprs : list string) : result frame :=
  let? ps := rmapM parse_expr exprs in
  select_alias df ps.

Fixpoint row_eqb (a b : row) : bool :=
  match a, b with
  | [], [] => true
  | x :: a', y :: b' => value_eqb x y && row_eqb a' b'
  | _, _ => false
  end.

(** [dropDuplicates()]: one row per class of equal rows (Spark does not
    fix which representative nor the order; we keep the first one). *)
Fixpoint dedup_aux (seen : list row) (rs : list row) : list row :=
  match rs with
  | [] => []
  | r :: rs' =>
      if existsb (row_eqb r) seen then dedup_aux seen rs'
      else r :: dedup_aux (r :: seen) rs'
  end.

Definition dedup (rs : list row) : list row := dedup_aux [] rs.

Definition dropDuplicates (df : frame) : frame :=
  mkFrame (schema df) (rmap dedup (rows df)).

(** The Python attribute access [df.c] ([DataFrame.__getattr__]): it raises
    [AttributeError] unless [c] is, exactly, one of [df.columns], and then
    resolves [c] as Spark does. *)
Definition attr (df : frame) (c : string) : result nat :=
  if existsb (String.eqb c) (schema df) then resolve (schema df) c
  else Raise (AttributeError ("'DataFrame' object has no attribute '" ++ c ++ "'")).

(** [df.filter(df.c == lit)]: a row is kept when its value equals [lit]; a
    null compares as null and the row is dropped. *)
Definition filter_eq (df : frame) (c : string) (lit : value) : result frame :=
  let? i := attr df c in
  Ok (mkFrame (schema df)
        (rmap (filter (fun r => value_eqb (nth i r VNull) lit)) (rows df))).

(** [df.withColumn(name, f(src))]: the column [src] is resolved eagerly;
    [f] runs per row when the rows are computed.  Every existing column
    whose name equals [name] up to case is replaced by the new column,
    named [name]; when there is none, the column is appended. *)
Definition withColumn (df : frame) (name : string) (f : value -> result value)
  (src : string) : result frame :=
  let? j := resolve (schema df) src in
  let compute := fun r : row => rmap (fun v => (r, v)) (f (nth j r VNull)) in
  if existsb (fun x => name_eqb x name) (schema df) then
    Ok (mkFrame (map (fun x => if name_eqb x name then name else x) (schema df))
          (rbind (rows df) (fun rs =>
             rmap (map (fun p =>
                     map (fun xv => if name_eqb (fst xv) name then snd p else snd xv)
                         (combine (schema df) (fst p))))
                  (rmapM compute rs))))
  else
    Ok (mkFrame (schema df ++ [name])%list
          (rbind (rows df) (fun rs =>
             rmap (map (fun p => (fst p ++ [snd p])%list)) (rmapM compute rs)))).

(** ** Timestamps

    Civil dates from days since 1970-01-01 (proleptic Gregorian, UTC). *)

Definition us_per_day : Z := 86400000000.
Definition us_per_hour : Z := 3600000000.

Definition days_of (us : Z) : Z := us / us_per_day.

Definition civil_from_days (d : Z) : Z * Z * Z :=
  let z := d + 719468 in
  let era := z / 146097 in
  let doe := z - era * 146097 in
  let yoe := (doe - doe / 1460 + doe / 36524 - doe / 146096) / 365 in
  let doy := doe - (365 * yoe + yoe / 4 - yoe / 100) in
  let mp := (5 * doy + 2) / 153 in
  let day := doy - (153 * mp + 2) / 5 + 1 in
  let m := if mp <? 10 then mp + 3 else mp - 9 in
  let y := yoe + era * 400 in
  ((if m <=? 2 then y + 1 else y), m, day).

Definition days_from_civil (y m d : Z) : Z :=
  let y' := if m <=? 2 then y - 1 else y in
  let era := y' / 400 in
  let yoe := y' - era * 400 in
  let mp := if 2 <? m then m - 3 else m + 9 in
  let doy := (153 * mp + 2) / 5 + d - 1 in
  let doe := yoe * 365 + yoe / 4 - yoe / 100 + doy in
  era * 146097 + doe - 719468.

(** ISO day of week, Monday = 1 ... Sunday = 7 (1970-01-01 was a Thursday). *)
Definition iso_weekday (d : Z) : Z := (d + 3) mod 7 + 1.

Definition weeks_in_year (y : Z) : Z :=
  let jan1 := iso_weekday (days_from_civil y 1 1) in
  let leap := ((y mod 4 =? 0) && negb (y mod 100 =? 0)) || (y mod 400 =? 0) in
  if (jan1 =? 4) || (leap && (jan1 =? 3)) then 53 else 52.

Definition iso_week (d : Z) : Z :=
  let '(y, _, _) := civil_from_days d in
  let doy := d - days_from_civil y 1 1 + 1 in
  let w := (doy - iso_weekday d + 10) / 7 in
  if w <? 1 then weeks_in_year (y - 1)
  else if weeks_in_year y <? w then 1 else w.

(** The Spark SQL functions of [pyspark.sql.functions] used on
    [start_time]; each maps null to null. *)
Definition ts_fn (f : Z -> Z) (v : value) : result value :=
  match v with
  | VTs us => Ok (VInt (f us))
  | _ => Ok VNull
  end.

Definition spark_hour : value -> result value :=
  ts_fn (fun us => (us / us_per_hour) mod 24).
Definition spark_dayofmonth : value -> result value :=
  ts_fn (fun us => let '(_, _, d) := civil_from_days (days_of us) in d).
Definition spark_weekofyear : value -> result value :=
  ts_fn (fun us => iso_week (days_of us)).
Definition spark_month : value -> result value :=
  ts_fn (fun us => let '(_, m, _) := civil_from_days (days_of us) in m).
Definition spark_year : value -> result value :=
  ts_fn (fun us => let '(y, _, _) := civil_from_days (days_of us) in y).
(** Sunday = 1 ... Saturday = 7. *)
Definition spark_dayofweek : value -> result value :=
  ts_fn (fun us => (days_of us + 4) mod 7 + 1).

(** ** Python names

    The module-level names bound by the imports of lines 5 and 6:
    [from pyspark.sql.functions import udf, col] and
    [from pyspark.sql.functions import year, month, dayofmonth, hour,
    weekofyear, date_format].  Evaluating any other unbound global name
    raises [NameError]. *)
Definition imported_functions : list string :=
  ["udf"; "col"; "year"; "month"; "dayofmonth"; "hour"; "weekofyear"; "date_format"].

Definition py_global (name : string) : result unit :=
  if existsb (String.eqb name) imported_functions then Ok tt
  else Raise (NameError ("name '" ++ name ++ "' is not defined")).

(** Evaluating [f("start_time")] for a column function [f] of
    [pyspark.sql.functions]: the Python name is looked up first. *)
Definition column_fn (name : string) : result (value -> result value) :=
  let? _ := py_global name in
  if String.eqb name "hour" then Ok spark_hour
  else if String.eqb name "dayofmonth" then Ok spark_dayofmonth
  else if String.eqb name "weekofyear" then Ok spark_weekofyear
  else if String.eqb name "month" then Ok spark_month
  else if String.eqb name "year" then Ok spark_year
  else if String.eqb name "dayofweek" then Ok spark_dayofweek
  else Raise (TypeError ("'" ++ name ++ "' is not a column function")).

(** ** Binary64 arithmetic

    A finite double is [f_man * 2 ^ f_exp].  [to_double a b] is the double
    nearest to [a / b] ([b > 0]), ties to even, as IEEE 754 rounds a
    correctly rounded operation: Python's [int / int], the product of two
    doubles, Java's [Double.parseDouble].  The exponent range is left
    unbounded; overflow is tested where the code can reach it, and
    subnormal results do not arise from the operations modelled here. *)

(** [a / b] rounded to an integer, ties to even ([b > 0]). *)
Definition round_half_even (a b : Z) : Z :=
  let q := a / b in
  let r := a mod b in
  if 2 * r <? b then q
  else if b <? 2 * r then q + 1
  else if Z.even q then q else q + 1.

Record float : Type := mkFloat { f_man : Z; f_exp : Z }.

Definition scaled_floor (a b e : Z) : Z :=
  if e <? 0 then a * 2 ^ (- e) / b else a / (b * 2 ^ e).

(** The exponent [e] with [2^52 <= a / b / 2^e < 2^53] ([a, b > 0]). *)
Definition binade (a b : Z) : Z :=
  let e0 := Z.log2 a - Z.log2 b - 52 in
  if scaled_floor a b e0 <? 2 ^ 52 then e0 - 1 else e0.

Definition round_scaled (a b e : Z) : Z :=
  if e <? 0 then round_half_even (a * 2 ^ (- e)) b
  else round_half_even a (b * 2 ^ e).

Definition to_double (a b : Z) : float :=
  if a =? 0 then mkFloat 0 0
  else let e := binade (Z.abs a) b in
       mkFloat (Z.sgn a * round_scaled (Z.abs a) b e) e.

Definition overflows (x : float) : bool :=
  1024 <=? f_exp x + Z.log2 (Z.abs (f_man x)).

(** A double rounded to an integer, ties to even (CPython's
    [_PyTime_RoundHalfEven]). *)
Definition round_float (x : float) : Z :=
  if f_exp x <? 0 then round_half_even (f_man x) (2 ^ (- f_exp x))
  else f_man x * 2 ^ f_exp x.

Definition float_Q (x : float) : QArith_base.Q :=
  if f_exp x <? 0 then QArith_base.Qmake (f_man x) (Z.to_pos (2 ^ (- f_exp x)))
  else QArith_base.inject_Z (f_man x * 2 ^ f_exp x).

(** The double Jackson reads for the number [a / b]: the nearest double, or
    an infinity. *)
Definition double_value (a b : Z) : value :=
  let x := to_double a b in
  if overflows x then VInf (a <? 0) else VDbl (float_Q x).

(** ** The timestamp UDF (lines 102-103)

    [udf(lambda x: datetime.utcfromtimestamp(int(x)/1000), TimestampType())] *)

(** Python's [int(x)] on the UDF's argument.  A string is parsed as a
    base-10 literal: surrounding whitespace, an optional sign, digits with
    single underscores between them. *)
Definition py_space (c : ascii) : bool :=
  let n := nat_of_ascii c in
  ((9 <=? n) && (n <=? 13))%nat || ((28 <=? n) && (n <=? 32))%nat.

Fixpoint strip_left (l : list ascii) : list ascii :=
  match l with
  | c :: l' => if py_space c then strip_left l' else l
  | [] => []
  end.

Definition strip (s : string) : list ascii :=
  rev (strip_left (rev (strip_left (list_ascii_of_string s)))).

Definition digit_of (c : ascii) : option Z :=
  let n := nat_of_ascii c in
  if ((48 <=? n) && (n <=? 57))%nat then Some (Z.of_nat n - 48) else None.

Fixpoint parse_digits (l : list ascii) (acc : Z) (after_digit : bool) : option Z :=
  match l with
  | [] => if after_digit then Some acc else None
  | c :: l' =>
      match digit_of c with
      | Some d => parse_digits l' (acc * 10 + d) true
      | None =>
          if Ascii.eqb c "_"%char && after_digit then parse_digits l' acc false
          else None
      end
  end.

Definition parse_int (s : string) : option Z :=
  match strip s with
  | c :: l =>
      if Ascii.eqb c "-"%char then option_map Z.opp (parse_digits l 0 false)
      else if Ascii.eqb c "+"%char then parse_digits l 0 false
      else parse_digits (c :: l) 0 false
  | [] => None
  end.

Definition py_int (v : value) : result Z :=
  match v with
  | VInt z => Ok z
  | VDbl q => Ok (Z.quot (QArith_base.Qnum q) (Zpos (QArith_base.Qden q)))
  | VStr s =>
      match parse_int s with
      | Some z => Ok z
      | None => Raise (ValueError ("invalid literal for int() with base 10: '" ++ s ++ "'"))
      end
  | VNaN => Raise (ValueError "cannot convert float NaN to integer")
  | VInf _ => Raise (OverflowError "cannot convert float infinity to integer")
  | VNull => Raise (TypeError "int() argument must be a string, a bytes-like object or a number, not 'NoneType'")
  | VTs _ => Raise (TypeError "int() argument must be a string, a bytes-like object or a number, not 'datetime.datetime'")
  end.

(** Python's true division of two ints, correctly rounded. *)
Definition true_div (n d : Z) : result float :=
  let x := to_double n d in
  if overflows x then Raise (OverflowError "integer division result too large for a float")
  else Ok x.

(** CPython's [_PyTime_DoubleToDenominator] with denominator 10^6: [modf]
    splits the double into its integral part and its fraction, the fraction
    is multiplied by 1e6 (a rounded product) and rounded half to even, and
    a carry moves it back into [0, 10^6). *)
Definition timestamp_parts (x : float) : Z * Z :=
  if f_exp x <? 0 then
    let d := 2 ^ (- f_exp x) in
    (Z.quot (f_man x) d, round_float (to_double (Z.rem (f_man x) d * 1000000) d))
  else (f_man x * 2 ^ f_exp x, 0).

Definition carry (p : Z * Z) : Z * Z :=
  let '(s, u) := p in
  if 1000000 <=? u then (s + 1, u - 1000000)
  else if u <? 0 then (s - 1, u + 1000000) else (s, u).

(** [datetime.utcfromtimestamp(x)]: the seconds and microseconds of the
    result, after the checks of CPython: the [time_t] range, [gmtime]'s
    [int] year, and the years 1 to 9999 of [datetime]. *)
Definition utcfromtimestamp (x : float) : result (Z * Z) :=
  let '(s, u) := carry (timestamp_parts x) in
  if negb ((- 2 ^ 63 <=? s) && (s <? 2 ^ 63)) then
    Raise (OverflowError "timestamp out of range for platform time_t")
  else
    let '(y, _, _) := civil_from_days (s / 86400) in
    if negb ((- 2 ^ 31 <=? y - 1900) && (y - 1900 <? 2 ^ 31)) then
      Raise (OSError "[Errno 75] Value too large for defined data type")
    else if negb ((1 <=? y) && (y <=? 9999)) then
      Raise (ValueError ("year " ++ z_text y ++ " is out of range"))
    else Ok (s, u).

(** The UDF, with the result's conversion to a TimestampType value
    ([TimestampType.toInternal]: [time.mktime] of the naive datetime, in the
    worker's time zone UTC, plus its microseconds). *)
Definition get_datetime (v : value) : result value :=
  let? n := py_int v in
  let? x := true_div n 1000 in
  let? su := utcfromtimestamp x in
  Ok (VTs (fst su * 1000000 + snd su)).

(** [df.join(other, df.a == other.b)]: an inner equi-join; the output
    keeps the columns of both sides (names may then repeat, and a later
    reference by name to a repeated one is ambiguous). *)
Definition join_eq (l r : frame) (a b : string) : result frame :=
  let? i := attr l a in
  let? j := attr r b in
  Ok (mkFrame (schema l ++ schema r)%list
        (let? ls := rows l in
         let? rs := rows r in
         Ok (flat_map (fun x =>
               flat_map (fun y =>
                 let u := nth i x VNull in
                 if value_eqb u VNull then []
                 else if value_eqb u (nth j y VNull) then [(x ++ y)%list] else []) rs) ls))).

(** [.drop(other.c)] right after a join whose right side is [other]: drops
    that particular column, found at offset [off] of the joined schema. *)
Definition drop_right (df : frame) (off : nat) (other : frame) (c : string)
  : result frame :=
  let? j := attr other c in
  let k := (off + j)%nat in
  let keep := filter (fun n => negb (Nat.eqb n k)) (seq 0 (length (schema df))) in
  Ok (mkFrame (map (fun n => nth n (schema df) "") keep)
        (rmap (map (project keep)) (rows df))).

(** ** Input files

    A JSON record is a list of fields with scalar values (nested objects,
    arrays and booleans do not occur in the inputs modelled).  A number
    with a fraction or an exponent carries its exact decimal value and the
    text Jackson writes back for it (Java's [Double.toString] of the parsed
    double). *)
Inductive jval : Type :=
| JNull
| JStr (s : string)
| JInt (z : Z)
| JFloat (q : QArith_base.Q) (java_text : string).

Definition json := list (string * jval).

(** The value of a field in a record (the last one if the key repeats),
    null when missing. *)
Definition field (o : json) (k : string) : jval :=
  fold_left (fun acc p => if String.eqb (fst p) k then snd p else acc) o JNull.

Inductive dtype : Type := TInt | TStr | TDbl.

(** [JacksonParser]'s conversion of a token to a declared type; [None] is a
    conversion failure. *)
Definition convert (t : dtype) (v : jval) : option value :=
  match t, v with
  | _, JNull => Some VNull
  | TStr, JStr s => Some (VStr s)
  | TStr, JInt z => Some (VStr (z_text z))
  | TStr, JFloat _ txt => Some (VStr txt)
  | TInt, JInt z =>
      if (- 2 ^ 31 <=? z) && (z <? 2 ^ 31) then Some (VInt z) else None
  | TInt, JStr s => if String.eqb s "" then Some VNull else None
  | TInt, JFloat _ _ => None
  | TDbl, JInt z => Some (double_value z 1)
  | TDbl, JFloat q _ =>
      Some (double_value (QArith_base.Qnum q) (Zpos (QArith_base.Qden q)))
  | TDbl, JStr s =>
      if String.eqb s "NaN" then Some VNaN
      else if String.eqb s "Infinity" then Some (VInf false)
      else if String.eqb s "-Infinity" then Some (VInf true)
      else None
  end.

Fixpoint convert_record (sch : list (string * dtype)) (o : json) : option row :=
  match sch with
  | [] => Some []
  | (k, t) :: sch' =>
      match convert t (field o k), convert_record sch' o with
      | Some v, Some vs => Some (v :: vs)
      | _, _ => None
      end
  end.

(** JSON read with a declared schema in PERMISSIVE mode: a missing field is
    null, and a record with a value that fails conversion becomes a row of
    nulls.  An empty list of records stands for a path pattern that matches
    no file. *)
Definition read_json_schema (sch : list (string * dtype)) (files : list json)
  : result frame :=
  match files with
  | [] => Raise (AnalysisException "Path does not exist")
  | _ => Ok (mkFrame (map fst sch)
              (Ok (map (fun o => match convert_record sch o with
                                 | Some r => r
                                 | None => map (fun _ => VNull) sch
                                 end) files)))
  end.

(** Schema inference ([JsonInferSchema]): a field's type is the join of the
    types of its values, null-only fields are strings.  An integer of at
    most 38 digits is integral (a long, or a decimal of scale 0); a longer
    one, and any other number, is a double; strings absorb everything. *)
Inductive jtype : Type := JTNull | JTIntegral | JTDouble | JTString.

Definition jtype_of (v : jval) : jtype :=
  match v with
  | JNull => JTNull
  | JStr _ => JTString
  | JInt z => if Z.abs z <? 10 ^ 38 then JTIntegral else JTDouble
  | JFloat _ _ => JTDouble
  end.

Definition jtype_join (a b : jtype) : jtype :=
  match a, b with
  | JTNull, t | t, JTNull => t
  | JTString, _ | _, JTString => JTString
  | JTDouble, _ | _, JTDouble => JTDouble
  | JTIntegral, JTIntegral => JTIntegral
  end.

(** A value read under its inferred type. *)
Definition read_value (t : jtype) (v : jval) : value :=
  match v with
  | JNull => VNull
  | JStr s => VStr s
  | JInt z =>
      match t with
      | JTString => VStr (z_text z)
      | JTDouble => double_value z 1
      | _ => VInt z
      end
  | JFloat q txt =>
      match t with
      | JTString => VStr txt
      | _ => double_value (QArith_base.Qnum q) (Zpos (QArith_base.Qden q))
      end
  end.

Fixpoint nub_strings (l : list string) : list string :=
  match l with
  | [] => []
  | x :: l' => x :: filter (fun y => negb (String.eqb x y)) (nub_strings l')
  end.

Fixpoint insert_sorted (x : string) (l : list string) : list string :=
  match l with
  | [] => [x]
  | y :: l' => if String.ltb x y then x :: l else y :: insert_sorted x l'
  end.

Definition sort_strings (l : list string) : list string :=
  fold_right insert_sorted [] l.

Fixpoint has_dup (l : list string) : bool :=
  match l with
  | [] => false
  | x :: l' => existsb (String.eqb x) l' || has_dup l'
  end.

(** JSON read with an inferred schema: the fields are sorted by name; a key
    repeated within a record, or two field names equal up to case, make the
    data schema hold a duplicate column, which Spark refuses. *)
Definition read_json (files : list json) : result frame :=
  match files with
  | [] => Raise (AnalysisException "Path does not exist")
  | _ =>
      let sch := sort_strings (nub_strings (flat_map (map fst) files)) in
      if existsb (fun o => has_dup (map fst o)) files || has_case_dup sch then
        Raise (AnalysisException "Found duplicate column(s) in the data schema")
      else
        let ty := fun k => fold_left jtype_join (map (fun o => jtype_of (field o k)) files) JTNull in
        Ok (mkFrame sch
              (Ok (map (fun o => map (fun k => read_value (ty k) (field o k)) sch) files)))
  end.

Record inputs : Type := mkInputs {
  song_files : list json;  (** song_data/*/*/*/*.json *)
  log_files : list json    (** log_data/*/*/*.json *)
}.

(** ** Output store and the statement monad *)

Record table : Type := mkTable {
  t_schema : list string;
  t_rows : list row;
  t_partition : list string
}.

Definition store := list (string * table).

Definition M (A : Type) : Type := store -> store * result A.

Definition ret {A} (a : A) : M A := fun st => (st, Ok a).

Definition bind {A B} (m : M A) (k : A -> M B) : M B :=
  fun st => match m st with
            | (st', Ok a) => k a st'
            | (st', Raise e) => (st', Raise e)
            end.

Notation "x <- m ;; k" := (bind m (fun x => k))
  (at level 61, m at next level, right associativity).
Notation "m ;;; k" := (bind m (fun _ => k))
  (at level 61, right associativity).

Definition lift {A} (r : result A) : M A := fun st => (st, r).

Definition stored (st : store) (path : string) : option table :=
  match find (fun p => String.eqb (fst p) path) st with
  | Some (_, t) => Some t
  | None => None
  end.

(** [os.path.join(a, b)] for a relative [b]. *)
Definition path_join (a b : string) : string :=
  match String.get (String.length a - 1) a with
  | Some "/"%char => a ++ b
  | _ => if String.eqb a "" then b else a ++ "/" ++ b
  end.

(** [DataFrameWriter] save modes: the default, [errorifexists], and
    ['overwrite']. *)
Inductive save_mode : Type := ErrorIfExists | Overwrite.

(** A parquet write: the partition columns are resolved and duplicate
    column names refused first, then the save mode is checked against the
    existing path, and the rows are computed. *)
Definition write (df : frame) (path : string) (mode : save_mode)
  (partitionBy : list string) : M unit :=
  fun st =>
    match rmapM (resolve (schema df)) partitionBy with
    | Raise e => (st, Raise e)
    | Ok _ =>
        if has_case_dup (schema df) then
          (st, Raise (AnalysisException
                        ("Found duplicate column(s) when inserting into " ++ path)))
        else
          match mode, stored st path with
          | ErrorIfExists, Some _ =>
              (st, Raise (AnalysisException ("path " ++ path ++ " already exists.")))
          | _, _ =>
              match rows df with
              | Raise e => (st, Raise e)
              | Ok rs =>
                  ((path, mkTable (schema df) rs partitionBy)
                     :: filter (fun p => negb (String.eqb (fst p) path)) st, Ok tt)
              end
          end
    end.

(** [spark.read.parquet(dir ++ pattern)] of a table written under [dir],
    where the pattern ([songs/*/*/*], [artists/*]) names the data files
    themselves: partition discovery then finds no partition directory, so
    the partition columns are not read back. *)
Definition read_parquet (dir : string) : M frame :=
  fun st =>
    match stored st dir with
    | Some t =>
        let keep := filter (fun n => negb (existsb (name_eqb (nth n (t_schema t) ""))
                                                   (t_partition t)))
                           (seq 0 (length (t_schema t))) in
        (st, Ok (mkFrame (map (fun n => nth n (t_schema t) "") keep)
                         (Ok (map (project keep) (t_rows t)))))
    | None => (st, Raise (AnalysisException ("Path does not exist: " ++ dir)))
    end.

(** [monotonically_increasing_id()] prepended as a column: the id of a row
    is (partition index << 33) + its position in the partition; one
    partition is modelled. *)
Definition with_row_ids (name : string) (df : frame) : frame :=
  mkFrame (name :: schema df)
    (rmap (fun rs => map (fun p => VInt (Z.of_nat (fst p)) :: snd p)
                         (combine (seq 0 (length rs)) rs)) (rows df)).

(** ** process_song_data (lines 28-72) *)

Definition song_schema : list (string * dtype) :=
  [("num_songs", TInt); ("artist_id", TStr); ("artist_latitude", TDbl);
   ("artist_longitude", TDbl); ("artist_location", TStr); ("artist_name", TStr);
   ("song_id", TStr); ("title", TStr); ("duration", TDbl); ("year", TInt)].

Definition columns : list string :=
  ["song_id"; "title"; "artist_id"; "year"; "duration"].

Definition art_cols : list string :=
  ["artist_id"; "artist_name as name"; "artist_location as location";
   "artist_lattitude as lattitude"; "artist_longitude as longitude"].

(** [artists_table = df.selectExpr(art_cols).dropDuplicates()] *)
Definition artists_table_of (df : frame) : result frame :=
  rmap dropDuplicates (selectExpr df art_cols).

Definition process_song_data (inp : inputs) (output_data : string) : M unit :=
  df <- lift (read_json_schema song_schema (song_files inp)) ;;
  songs_table <- lift (select df columns) ;;
  write songs_table (output_data ++ "songs/") ErrorIfExists ["year"; "artist_id"] ;;;
  artists_table <- lift (artists_table_of df) ;;
  write artists_table (output_data ++ "artists/") ErrorIfExists [].

(** ** process_log_data (lines 75-141) *)

(** Lines 90-93: read the log data and keep the song plays,
    [df.filter(df.page == 'NextPage')]. *)
Definition log_events (files : list json) : result frame :=
  let? df := read_json files in
  filter_eq df "page" (VStr "NextPage").

Definition user_cols : list string :=
  ["userdId AS user_id"; "firstName AS first_name"; "lastName AS last_name";
   "gender"; "level"].

(** [user_table = df.selectExpr(user_cols).dropDuplicates()] *)
Definition users_table_of (df : frame) : result frame :=
  rmap dropDuplicates (selectExpr df user_cols).

(** [.withColumn(name, fname("start_time"))]: the Python call
    [fname("start_time")] is evaluated before [withColumn] runs. *)
Definition with_fn (t : frame) (name fname : string) : result frame :=
  let? f := column_fn fname in
  withColumn t name f "start_time".

(** Lines 107-114. *)
Definition time_table_of (df : frame) : result frame :=
  let? t := select df ["start_time"] in
  let t := dropDuplicates t in
  let? t := with_fn t "hour" "hour" in
  let? t := with_fn t "day" "dayofmonth" in
  let? t := with_fn t "week" "weekofyear" in
  let? t := with_fn t "month" "month" in
  let? t := with_fn t "year" "year" in
  let? t := with_fn t "weekday" "dayofweek" in
  select t [""].

(** Lines 128-138: the arguments of [.select(...)] are evaluated first,
    starting with the name [monotonically_increasing_id]. *)
Definition songplays_select (j : frame) : result frame :=
  let? _ := py_global "monotonically_increasing_id" in
  let? t := select_alias j
    [("start_time", None); ("userId", Some "user_id"); ("level", None);
     ("song_id", None); ("artist_id", None);
     ("sessionId", Some "session_id"); ("location", None);
     ("userAgent", Some "user_agent"); ("year", None); ("month", None)] in
  Ok (with_row_ids "songplay_id" t).

Definition process_log_data (inp : inputs) (output_data : string) : M unit :=
  df <- lift (log_events (log_files inp)) ;;
  user_table <- lift (users_table_of df) ;;
  write user_table (output_data ++ "users/") ErrorIfExists [] ;;;
  df <- lift (withColumn df "start_time" get_datetime "ts") ;;
  time_table <- lift (time_table_of df) ;;
  write time_table (path_join output_data "time/") Overwrite ["year"; "month"] ;;;
  df_songs <- read_parquet (output_data ++ "songs/") ;;
  df_artists <- read_parquet (output_data ++ "artists/") ;;
  log_songs <- lift (let? j := join_eq df df_songs "song" "title" in
                     drop_right j (length (schema df)) df_songs "year") ;;
  log_song_artist <- lift (join_eq log_songs df_artists "artist" "name") ;;
  songplays_table <- lift (let? j := join_eq log_song_artist time_table
                                               "start_time" "start_time" in
                           songplays_select j) ;;
  write songplays_table (output_data ++ "songplays/") ErrorIfExists ["year"; "month"].

(** ** main (lines 144-153) *)

Definition output_data : string := "s3a://datalake-project-jin/output/".

Definition main (inp : inputs) : M unit :=
  process_song_data inp output_data ;;;
  process_log_data inp output_data.

(** ** Sample inputs *)

(** A log event as the client writes it (the fields of log_data). *)
Definition log_event (page : string) (uid ts : Z) : json :=
  [("artist", JStr "Des'ree"); ("firstName", JStr "Sylvie"); ("gender", JStr "F");
   ("lastName", JStr "Cruz"); ("level", JStr "free"); ("location", JStr "Washington");
   ("page", JStr page); ("sessionId", JInt 9); ("song", JStr "You Gotta Be");
   ("ts", JInt ts); ("userAgent", JStr "Mozilla/5.0"); ("userId", JInt uid)].

(** The same event when it also carries the field [userdId] that line 96
    selects. *)
Definition log_event_userdId (page : string) (uid ts : Z) : json :=
  (log_event page uid ts ++ [("userdId", JInt uid)])%list.

Definition sample_song : json :=
  [("num_songs", JInt 1); ("artist_id", JStr "ARJIE2Y1187B994AB7");
   ("artist_latitude", JNull); ("artist_longitude", JNull);
   ("artist_location", JStr ""); ("artist_name", JStr "Des'ree");
   ("song_id", JStr "SOUPIRU12A6D4FA1E1"); ("title", JStr "You Gotta Be");
   ("duration", JFloat (QArith_base.Qmake 24651 100) "246.51"); ("year", JInt 1994)].

(** Scenario B (a [NextSong] and a [Help] event) plus a [NextPage] event. *)
Definition sample_logs : list json :=
  [log_event "NextSong" 10 1541121934796; log_event "Help" 11 1541121934000;
   log_event "NextPage" 12 1541121935000].

Definition sample_inputs : inputs := mkInputs [sample_song] sample_logs.

(** The events of [sample_logs], carrying [userdId] as well. *)
Definition userdId_logs : list json :=
  [log_event_userdId "NextSong" 10 1541121934796; log_event_userdId "Help" 11 1541121934000;
   log_event_userdId "NextPage" 12 1541121935000].

Definition userdId_inputs : inputs := mkInputs [] userdId_logs.

(** The row of user 12 in the users table. *)
Definition user12_row : row := [VInt 12; VStr "Sylvie"; VStr "Cruz"; VStr "F"; VStr "free"].

End Etl.

(** * Proofs *)

Module EtlProofs.
Import Etl.

(** ** Column resolution *)

Lemma resolve_single (sch : list string) (c : string) (i : nat) :
  positions sch c 0 = [i] -> resolve sch c = Ok i.
Proof. intros H. unfold resolve. now rewrite H. Qed.

Lemma positions_name (sch : list string) (c : string) (n i : nat) :
  In i (positions sch c n) ->
  (n <= i)%nat /\ name_eqb (nth (i - n) sch "") c = true.
Proof.
  revert n. induction sch as [|x sch IH]; intros n H; cbn in H; [contradiction|].
  destruct (name_eqb x c) eqn:E.
  - destruct H as [<-|H].
    + rewrite Nat.sub_diag. split; [lia|exact E].
    + destruct (IH _ H) as [Hle Hn]. split; [lia|].
      replace (i - n)%nat with (S (i - S n)) by lia. exact Hn.
  - destruct (IH _ H) as [Hle Hn]. split; [lia|].
    replace (i - n)%nat with (S (i - S n)) by lia. exact Hn.
Qed.

Lemma positions_nil (sch : list string) (c : string) (n : nat) :
  (forall x, In x sch -> name_eqb x c = false) -> positions sch c n = [].
Proof.
  revert n. induction sch as [|x sch IH]; intros n H; [reflexivity|].
  cbn. rewrite (H x (or_introl eq_refl)). apply IH. intros y Hy. apply H. now right.
Qed.

(** ** The time table *)

(** [withColumn] with a new name appends the column. *)
Lemma withColumn_append (df : frame) (name src : string) (f : value -> result value)
  (j : nat) :
  resolve (schema df) src = Ok j ->
  existsb (fun x => name_eqb x name) (schema df) = false ->
  withColumn df name f src
  = Ok (mkFrame (schema df ++ [name])%list
          (rbind (rows df) (fun rs =>
             rmap (map (fun p => (fst p ++ [snd p])%list))
                  (rmapM (fun r => rmap (fun v => (r, v)) (f (nth j r VNull))) rs)))).
Proof. intros H1 H2. unfold withColumn. rewrite H1. cbn [rbind]. now rewrite H2. Qed.

Ltac start_time_side Hx :=
  unfold resolve; cbn -[name_eqb lower]; unfold name_eqb; rewrite Hx; reflexivity.

(** Once [start_time] names exactly one column, the derivation of lines
    107-114 stops at [dayofweek]. *)
Lemma time_table_of_single (df : frame) (i : nat) :
  positions (schema df) "start_time" 0 = [i] ->
  time_table_of df = Raise (NameError "name 'dayofweek' is not defined").
Proof.
  intros H.
  assert (Hx : lower (nth i (schema df) "") = "start_time").
  { destruct (positions_name (schema df) "start_time" 0 i) as [_ Hn];
      [rewrite H; now left|].
    rewrite Nat.sub_0_r in Hn. now apply String.eqb_eq in Hn. }
  unfold time_table_of, select. cbn [rmapM]. rewrite (resolve_single _ _ _ H).
  cbn [rbind map schema]. set (x := nth i (schema df) "") in *. clearbody x.
  unfold with_fn.
  assert (C1 : column_fn "hour" = Ok spark_hour) by reflexivity.
  assert (C2 : column_fn "dayofmonth" = Ok spark_dayofmonth) by reflexivity.
  assert (C3 : column_fn "weekofyear" = Ok spark_weekofyear) by reflexivity.
  assert (C4 : column_fn "month" = Ok spark_month) by reflexivity.
  assert (C5 : column_fn "year" = Ok spark_year) by reflexivity.
  assert (C6 : column_fn "dayofweek" = Raise (NameError "name 'dayofweek' is not defined"))
    by reflexivity.
  rewrite C1. cbn [rbind].
  rewrite withColumn_append with (j := 0%nat) by start_time_side Hx.
  cbn [rbind schema dropDuplicates]. rewrite C2. cbn [rbind].
  rewrite withColumn_append with (j := 0%nat) by start_time_side Hx.
  cbn [rbind schema]. rewrite C3. cbn [rbind].
  rewrite withColumn_append with (j := 0%nat) by start_time_side Hx.
  cbn [rbind schema]. rewrite C4. cbn [rbind].
  rewrite withColumn_append with (j := 0%nat) by start_time_side Hx.
  cbn [rbind schema]. rewrite C5. cbn [rbind].
  rewrite withColumn_append with (j := 0%nat) by start_time_side Hx.
  cbn [rbind schema]. rewrite C6. reflexivity.
Qed.

(** Whatever frame it is given, the time-table derivation raises. *)
Lemma time_table_of_raises (df : frame) : exists e, time_table_of df = Raise e.
Proof.
  destruct (positions (schema df) "start_time" 0) as [|i [|i' l]] eqn:H.
  - unfold time_table_of, select. cbn [rmapM]. unfold resolve at 1. rewrite H.
    eexists; reflexivity.
  - eexists. now apply time_table_of_single with i.
  - unfold time_table_of, select. cbn [rmapM]. unfold resolve at 1. rewrite H.
    eexists; reflexivity.
Qed.

(** ** The output store *)

Lemma stored_cons (k : string) (x : string * table) (st : store) :
  stored (x :: st) k = if String.eqb (fst x) k then Some (snd x) else stored st k.
Proof.
  unfold stored. cbn. destruct (String.eqb (fst x) k); [now destruct x|reflexivity].
Qed.

Lemma stored_filter_other (st : store) (p k : string) :
  k <> p ->
  stored (filter (fun q => negb (String.eqb (fst q) p)) st) k = stored st k.
Proof.
  intros Hk. induction st as [|x st IH]; [reflexivity|].
  cbn [filter]. destruct (String.eqb (fst x) p) eqn:E; cbn [negb].
  - rewrite stored_cons. apply String.eqb_eq in E. rewrite E.
    replace (String.eqb p k) with false; [exact IH|].
    symmetry. apply String.eqb_neq. congruence.
  - rewrite !stored_cons. now rewrite IH.
Qed.

(** A write changes the store at its own path only. *)
Lemma write_stored_other (df : frame) (p : string) (mode : save_mode)
  (parts : list string) (st : store) (k : string) :
  k <> p -> stored (fst (write df p mode parts st)) k = stored st k.
Proof.
  intros Hk. unfold write.
  destruct (rmapM (resolve (schema df)) parts); cbn [fst]; [|reflexivity].
  destruct (has_case_dup (schema df)); cbn [fst]; [reflexivity|].
  destruct mode, (stored st p); cbn [fst]; try reflexivity;
  destruct (rows df); cbn [fst]; try reflexivity;
  rewrite stored_cons; cbn [fst];
  (replace (String.eqb p k) with false by (symmetry; apply String.eqb_neq; congruence));
  now apply stored_filter_other.
Qed.

(** At its own path, a write either leaves the store as it was or stores
    the frame's schema and computed rows. *)
Lemma write_stored_same (df : frame) (p : string) (mode : save_mode)
  (parts : list string) (st : store) (t : table) :
  stored (fst (write df p mode parts st)) p = Some t ->
  stored st p = Some t \/ (t_schema t = schema df /\ rows df = Ok (t_rows t)).
Proof.
  unfold write. intros H.
  destruct (rmapM (resolve (schema df)) parts); cbn [fst] in H; [|now left].
  destruct (has_case_dup (schema df)); cbn [fst] in H; [now left|].
  destruct mode, (stored st p) eqn:Hs; cbn [fst] in H; try (left; congruence);
  destruct (rows df) eqn:Hr; cbn [fst] in H; try (left; congruence);
  rewrite stored_cons in H; cbn [fst snd] in H; rewrite String.eqb_refl in H;
  inversion H; subst t; right; split; reflexivity.
Qed.

Lemma append_neq (out a b : string) : a <> b -> out ++ a <> out ++ b.
Proof.
  intros Hab. induction out as [|c out IH]; cbn; [exact Hab|].
  intros E. inversion E. contradiction.
Qed.

Lemma length_app (a b : string) :
  String.length (a ++ b) = (String.length a + String.length b)%nat.
Proof. induction a as [|c a IH]; cbn; [reflexivity|now rewrite IH]. Qed.

Lemma path_join_cases (a b : string) :
  path_join a b = a ++ b \/ path_join a b = b \/ path_join a b = a ++ "/" ++ b.
Proof.
  unfold path_join.
  destruct (String.get _ a) as [[[] [] [] [] [] [] [] []]|]; cbn; auto;
  destruct (String.eqb a ""); auto.
Qed.

Lemma time_path_neq (out p : string) :
  String.length p = 6%nat -> (forall c, p <> String c "time/") ->
  path_join out "time/" <> out ++ p.
Proof.
  intros Hl Hc.
  destruct (path_join_cases out "time/") as [E|[E|E]]; rewrite E.
  - apply append_neq. intros <-. discriminate.
  - intros H. apply (f_equal String.length) in H. rewrite length_app in H.
    cbn in H. lia.
  - apply append_neq. cbn. intros H. now apply (Hc "/"%char).
Qed.

(** ** The song pipeline *)

(** On every catalog read with [song_schema], the artists projection of
    line 68 raises: it names [artist_lattitude]. *)
Lemma artists_table_of_song_schema (files : list json) (df : frame) :
  read_json_schema song_schema files = Ok df ->
  artists_table_of df = Raise (AnalysisException "cannot resolve 'artist_lattitude'").
Proof.
  intros H. destruct files as [|f files]; cbn in H; [discriminate|].
  inversion H; subst. reflexivity.
Qed.

(** [process_song_data] never completes: it leaves the store as it was, or
    as the songs write leaves it, and raises. *)
Lemma process_song_data_raises (inp : inputs) (out : string) (st : store) :
  exists e, process_song_data inp out st = (st, Raise e) \/
  exists df s, read_json_schema song_schema (song_files inp) = Ok df /\
    select df columns = Ok s /\
    process_song_data inp out st
    = (fst (write s (out ++ "songs/") ErrorIfExists ["year"; "artist_id"] st), Raise e).
Proof.
  unfold process_song_data, bind, lift.
  destruct (read_json_schema song_schema (song_files inp)) as [df|e] eqn:Hr;
    [|exists e; now left].
  destruct (select df columns) as [s|e] eqn:Hs; [|exists e; now left].
  destruct (write s (out ++ "songs/") ErrorIfExists ["year"; "artist_id"] st)
    as [st1 [[]|e]] eqn:Hw.
  - rewrite (artists_table_of_song_schema _ _ Hr).
    eexists. right. exists df, s. rewrite Hw. auto.
  - exists e. right. exists df, s. rewrite Hw. auto.
Qed.

(** The first run of [main] on an empty output store: at most the songs
    table is written, and the run ends in an exception. *)
Lemma main_first_run (inp : inputs) :
  (song_files inp = [] /\
   main inp [] = ([], Raise (AnalysisException "Path does not exist"))) \/
  (song_files inp <> [] /\ exists t,
   main inp [] = ([(output_data ++ "songs/", t)],
                  Raise (AnalysisException "cannot resolve 'artist_lattitude'"))).
Proof.
  destruct inp as [songs logs]. cbn [song_files].
  destruct songs as [|f fs]; [left; split; reflexivity|].
  right. split; [discriminate|]. eexists.
  unfold main, process_song_data, bind, lift. cbn. reflexivity.
Qed.

(** ** The log pipeline *)

(** [process_log_data] leaves the store as it was, or as the users write
    leaves it: the time-table derivation raises before any later write. *)
Lemma process_log_data_store (inp : inputs) (out : string) (st : store) :
  fst (process_log_data inp out st) = st \/
  exists df u, log_events (log_files inp) = Ok df /\ users_table_of df = Ok u /\
    fst (process_log_data inp out st) = fst (write u (out ++ "users/") ErrorIfExists [] st).
Proof.
  unfold process_log_data, bind, lift.
  destruct (log_events (log_files inp)) as [df|e]; [|now left].
  destruct (users_table_of df) as [u|e] eqn:Hu; [|now left].
  right. exists df, u. split; [reflexivity|]. split; [exact Hu|].
  destruct (write u (out ++ "users/") ErrorIfExists [] st) as [st1 [[]|e]];
    [|reflexivity].
  destruct (withColumn df "start_time" get_datetime "ts") as [df'|e]; [|reflexivity].
  destruct (time_table_of_raises df') as [e Ht]. rewrite Ht. reflexivity.
Qed.

(** ** Distinct rows *)

Lemma value_eqb_sym (a b : value) : value_eqb a b = value_eqb b a.
Proof.
  destruct a, b; cbn; try reflexivity.
  - apply String.eqb_sym.
  - apply Z.eqb_sym.
  - destruct (QArith_base.Qeq_bool q q0) eqn:E;
      destruct (QArith_base.Qeq_bool q0 q) eqn:E'; try reflexivity;
      apply QArith_base.Qeq_bool_iff in E || apply QArith_base.Qeq_bool_iff in E';
      apply QArith_base.Qeq_sym in E || apply QArith_base.Qeq_sym in E';
      apply QArith_base.Qeq_bool_iff in E || apply QArith_base.Qeq_bool_iff in E';
      congruence.
  - now destruct neg, neg0.
  - apply Z.eqb_sym.
Qed.

Lemma row_eqb_sym (a b : row) : row_eqb a b = row_eqb b a.
Proof.
  revert b. induction a as [|x a IH]; intros [|y b]; cbn; try reflexivity.
  now rewrite value_eqb_sym, IH.
Qed.

Lemma dedup_aux_distinct (seen rs : list row) :
  ForallOrdPairs (fun a b => row_eqb a b = false) (dedup_aux seen rs) /\
  Forall (fun r => existsb (row_eqb r) seen = false) (dedup_aux seen rs).
Proof.
  revert seen. induction rs as [|r rs IH]; intros seen; cbn.
  - split; constructor.
  - destruct (existsb (row_eqb r) seen) eqn:E; [apply IH|].
    destruct (IH (r :: seen)) as [Hp Hf]. split.
    + constructor; [|exact Hp].
      eapply Forall_impl; [|exact Hf]. intros r' Hr'. cbn in Hr'.
      apply orb_false_iff in Hr'. rewrite row_eqb_sym. apply Hr'.
    + constructor; [exact E|].
      eapply Forall_impl; [|exact Hf]. intros r' Hr'. cbn in Hr'.
      apply orb_false_iff in Hr'. apply Hr'.
Qed.

(** Once computed, the rows of the users table are pairwise distinct. *)
Lemma users_rows_distinct (df u : frame) (rs : list row) :
  users_table_of df = Ok u -> rows u = Ok rs ->
  ForallOrdPairs (fun a b => row_eqb a b = false) rs.
Proof.
  unfold users_table_of, rmap. destruct (selectExpr df user_cols) as [f|e];
    cbn; intros H; [|discriminate].
  inversion H; subst u. cbn. destruct (rows f); cbn; intros Hr; [|discriminate].
  inversion Hr; subst rs. apply dedup_aux_distinct.
Qed.

(** ** The timestamp UDF on [0, 2^41) milliseconds *)

Lemma rhe_bounds (a b : Z) : 0 < b ->
  - b <= 2 * (round_half_even a b * b - a) <= b.
Proof.
  intros Hb. unfold round_half_even.
  pose proof (Z.div_mod a b ltac:(lia)) as Ha.
  pose proof (Z.mod_pos_bound a b Hb) as Hr.
  set (q := a / b) in *. set (r := a mod b) in *.
  destruct (2 * r <? b) eqn:E1; [apply Z.ltb_lt in E1; nia|apply Z.ltb_ge in E1].
  destruct (b <? 2 * r) eqn:E2; [apply Z.ltb_lt in E2; nia|apply Z.ltb_ge in E2].
  destruct (Z.even q); nia.
Qed.

Lemma rhe_unique (a b k : Z) : 0 < b ->
  - b < 2 * (k * b - a) < b -> round_half_even a b = k.
Proof.
  intros Hb Hk. pose proof (rhe_bounds a b Hb). nia.
Qed.



Lemma binade_le (a b : Z) : binade a b <= Z.log2 a - Z.log2 b - 52.
Proof. unfold binade. destruct (_ <? _); lia. Qed.

Lemma to_double_pos (a b : Z) : 0 < a ->
  to_double a b = mkFloat (round_scaled a b (binade a b)) (binade a b).
Proof.
  intros Ha. unfold to_double.
  replace (a =? 0) with false by (symmetry; apply Z.eqb_neq; lia).
  rewrite Z.abs_eq by lia. rewrite Z.sgn_pos by lia. now rewrite Z.mul_1_l.
Qed.

(** Core: for 0 < ms < 2^41 the parts are (floor(ms/1000), ms mod 1000 * 1000). *)
Lemma parts_exact (ms : Z) : 0 < ms < 2 ^ 41 ->
  exists s u, carry (timestamp_parts (to_double ms 1000)) = (s, u) /\
    s * 1000000 + u = ms * 1000 /\ 0 <= u < 1000000 /\
    f_exp (to_double ms 1000) + Z.log2 (Z.abs (f_man (to_double ms 1000))) < 1024.
Proof.
  intros Hms. rewrite to_double_pos by lia.
  set (e := binade ms 1000).
  assert (He : e <= -21).
  { pose proof (binade_le ms 1000) as H. fold e in H.
    assert (Z.log2 ms < 41) by (apply Z.log2_lt_pow2; lia).
    change (Z.log2 1000) with 9 in H. lia. }
  set (s := - e).
  assert (HD : 2 ^ 21 <= 2 ^ s) by (apply Z.pow_le_mono_r; lia).
  set (D := 2 ^ s) in *.
  assert (Hm : round_scaled ms 1000 e = round_half_even (ms * D) 1000).
  { unfold round_scaled. replace (e <? 0) with true by (symmetry; apply Z.ltb_lt; lia).
    reflexivity. }
  rewrite Hm. set (m := round_half_even (ms * D) 1000).
  pose proof (rhe_bounds (ms * D) 1000 ltac:(lia)) as H1. fold m in H1.
  assert (Hm0 : 0 <= m) by nia.
  unfold timestamp_parts. cbn [f_exp f_man].
  replace (e <? 0) with true by (symmetry; apply Z.ltb_lt; lia).
  fold s. fold D.
  rewrite Z.quot_div_nonneg, Z.rem_mod_nonneg by lia.
  pose proof (Z.div_mod m D ltac:(lia)) as Hdm.
  pose proof (Z.mod_pos_bound m D ltac:(lia)) as Hr.
  set (ip := m / D) in *. set (r := m mod D) in *.
  set (K := ms * 1000 - ip * 1000000).
  assert (HKD : K * D = 1000 * (ms * D - 1000 * m) + 1000000 * r) by (unfold K; nia).
  assert (HK : 0 <= K < 1000000) by nia.
  assert (Hu : round_float (to_double (r * 1000000) D) = K).
  { destruct (Z.eq_dec r 0) as [Hr0|Hr0].
    - rewrite Hr0. cbn. nia.
    - rewrite to_double_pos by lia.
      set (e2 := binade (r * 1000000) D).
      assert (He2 : e2 <= -33).
      { pose proof (binade_le (r * 1000000) D) as H. fold e2 in H.
        assert (Hl : Z.log2 D = s) by (apply Z.log2_pow2; lia).
        assert (Z.log2 (r * 1000000) < s + 20).
        { apply Z.log2_lt_pow2; [lia|].
          rewrite Z.pow_add_r by lia. change (2 ^ 20) with 1048576. fold D. nia. }
        lia. }
      assert (HD2 : 2 <= 2 ^ (- e2)) by (change 2 with (2 ^ 1) at 1; apply Z.pow_le_mono_r; lia).
      set (D2 := 2 ^ (- e2)) in *.
      unfold round_float, round_scaled. cbn [f_exp f_man].
      replace (e2 <? 0) with true by (symmetry; apply Z.ltb_lt; lia). fold D2.
      set (m2 := round_half_even (r * 1000000 * D2) D).
      pose proof (rhe_bounds (r * 1000000 * D2) D ltac:(lia)) as H4. fold m2 in H4.
      apply rhe_unique; [lia|].
      set (X := 2 * (K * D2 - m2)).
      set (P := ms * D - 1000 * m).
      set (Q := m2 * D - r * 1000000 * D2).
      assert (HX : X * D = 2000 * D2 * P - 2 * Q) by (unfold X, P, Q; nia).
      assert (HP : -1000 <= 2 * P <= 1000) by (unfold P; lia).
      assert (HQ : - D <= 2 * Q <= D) by (unfold Q; lia).
      assert (HP2 : -1000000 * D2 <= 2000 * D2 * P <= 1000000 * D2) by nia.
      assert (Hprod : 0 <= (D2 - 2) * (D - 1000000)) by (apply Z.mul_nonneg_nonneg; lia).
      assert (- D2 * D < X * D < D2 * D) by nia.
      split; nia. }
  rewrite Hu. unfold carry.
  replace (1000000 <=? K) with false by (symmetry; apply Z.leb_gt; lia).
  replace (K <? 0) with false by (symmetry; apply Z.ltb_ge; lia).
  exists ip, K. split; [reflexivity|]. split; [unfold K; lia|]. split; [exact HK|].
  rewrite Z.abs_eq by lia.
  assert (Z.log2 m <= Z.log2 (ms * D)) by (apply Z.log2_le_mono; nia).
  assert (Z.log2 (ms * D) = s + Z.log2 ms) by (apply Z.log2_mul_pow2; lia).
  assert (Z.log2 ms < 41) by (apply Z.log2_lt_pow2; lia).
  lia.
Qed.

(** Days since the epoch below 100000 (before the year 2243) fall in years
    of the Gregorian calendar's fifth and sixth 400-year eras. *)
Lemma civil_year_range (d : Z) : 0 <= d < 100000 ->
  1600 <= fst (fst (civil_from_days d)) <= 2800.
Proof.
  intros Hd. unfold civil_from_days. cbv zeta.
  assert (He : 4 <= (d + 719468) / 146097 <= 5) by (Z.div_mod_to_equations; lia).
  remember ((d + 719468) / 146097) as era eqn:Hera.
  assert (Ho : 0 <= d + 719468 - era * 146097 < 146097)
    by (subst era; Z.div_mod_to_equations; lia).
  remember (d + 719468 - era * 146097) as doe eqn:Hdoe.
  assert (Hy : 0 <= (doe - doe / 1460 + doe / 36524 - doe / 146096) / 365 <= 400)
    by (Z.div_mod_to_equations; lia).
  remember ((doe - doe / 1460 + doe / 36524 - doe / 146096) / 365) as yoe.
  destruct (_ <? 10), (_ <=? 2); cbn [fst]; lia.
Qed.

Ltac bool_false := match goal with
  | |- context [negb ((?a <=? ?b) && (?c <? ?d))] =>
      replace ((a <=? b) && (c <? d)) with true
        by (symmetry; apply andb_true_iff; split; [apply Z.leb_le|apply Z.ltb_lt]; lia)
  | |- context [negb ((?a <=? ?b) && (?c <=? ?d))] =>
      replace ((a <=? b) && (c <=? d)) with true
        by (symmetry; apply andb_true_iff; split; apply Z.leb_le; lia)
  end.

(** For [0 <= ms < 2^41] (before 2039-09-07), the UDF of line 103 yields
    the instant exactly [ms] milliseconds after the epoch. *)
Lemma get_datetime_exact (ms : Z) : 0 <= ms < 2 ^ 41 ->
  get_datetime (VInt ms) = Ok (VTs (ms * 1000)).
Proof.
  intros Hms. destruct (Z.eq_dec ms 0) as [->|Hnz]; [reflexivity|].
  destruct (parts_exact ms ltac:(lia)) as [s [u [Hc [Hsu [Hu Hov]]]]].
  unfold get_datetime, py_int, true_div, overflows. cbn [rbind].
  replace (1024 <=? _) with false by (symmetry; apply Z.leb_gt; exact Hov).
  cbn [rbind]. unfold utcfromtimestamp. rewrite Hc.
  change (2 ^ 41) with 2199023255552 in Hms.
  assert (0 <= s < 2199023256) by lia.
  bool_false. cbn [negb].
  pose proof (civil_year_range (s / 86400) ltac:(Z.div_mod_to_equations; lia)) as Hy.
  destruct (civil_from_days (s / 86400)) as [[y m] dd]. cbn [fst] in Hy.
  bool_false. cbn [negb]. bool_false. cbn [negb]. cbn [rbind fst snd].
  do 2 f_equal. lia.
Qed.

(** ** C1 *)

(** C1 (code_bug). Line 93 keeps the events whose [page] is ['NextPage'],
    not the song plays ([NextSong]).  On the Scenario B events plus a
    [NextPage] event, all carrying the [userdId] field that line 96
    selects, the users table written from an empty output store holds the
    [NextPage] event's user 12 only: the [NextSong] play of user 10 is
    dropped and a non-play event contributes a row. *)
Theorem users_from_NextPage_events :
  stored (fst (process_log_data userdId_inputs output_data [])) (output_data ++ "users/")
  = Some (mkTable ["user_id"; "first_name"; "last_name"; "gender"; "level"]
                  [user12_row] []).
Proof. vm_compute. reflexivity. Qed.

(** ** C2 *)

(** C2 (code_bug). Once [start_time] names exactly one column, building the
    time table raises [NameError] on [dayofweek], which line 6 does not
    import; no seven-column table is produced. *)
Theorem time_table_dayofweek_unbound (df : frame) (i : nat) :
  positions (schema df) "start_time" 0 = [i] ->
  time_table_of df = Raise (NameError "name 'dayofweek' is not defined").
Proof. apply time_table_of_single. Qed.

Lemma time_table_dayofweek_unbound_witness :
  positions ["start_time"] "start_time" 0 = [0%nat] /\
  time_table_of (mkFrame ["start_time"] (Ok [[VTs 1541121934796000]]))
  = Raise (NameError "name 'dayofweek' is not defined").
Proof.
  split; [reflexivity|].
  apply (time_table_dayofweek_unbound _ 0%nat). reflexivity.
Defined.

(** ** C3 *)

(** C3 (counterexample). For [ts = 1541121934796] the derived [start_time]
    is not the floored second 1541121934, and its UTC hour is not 9. *)
Lemma start_time_1541121934796_counterexample :
  get_datetime (VInt 1541121934796) <> Ok (VTs (1541121934 * 1000000)) /\
  rbind (get_datetime (VInt 1541121934796)) spark_hour <> Ok (VInt 9).
Proof. split; vm_compute; discriminate. Qed.

(** C3 (amended). For [0 <= ts < 2^41] (before 2039-09-07), [start_time]
    is exactly [ts] milliseconds after the epoch (its microsecond count is
    [ts * 1000]: the milliseconds are kept, not floored), and its UTC hour
    is [ts / 3600000 mod 24]; for [ts = 1541121934796]
    (2018-11-02 01:25:34.796 UTC) the hour is 1. *)
Theorem start_time_keeps_milliseconds (ms : Z) (H : 0 <= ms < 2 ^ 41) :
  get_datetime (VInt ms) = Ok (VTs (ms * 1000)) /\
  rbind (get_datetime (VInt ms)) spark_hour = Ok (VInt (ms / 3600000 mod 24)) /\
  rbind (get_datetime (VInt 1541121934796)) spark_hour = Ok (VInt 1).
Proof.
  rewrite (get_datetime_exact ms H). split; [reflexivity|]. split.
  - cbn [rbind spark_hour ts_fn]. unfold us_per_hour.
    replace 3600000000 with (3600000 * 1000) by reflexivity.
    rewrite Z.div_mul_cancel_r by discriminate. reflexivity.
  - rewrite get_datetime_exact by lia. reflexivity.
Qed.

Lemma start_time_keeps_milliseconds_witness :
  (0 <= 1541121934796 < 2 ^ 41) /\
  get_datetime (VInt 1541121934796) = Ok (VTs (1541121934796 * 1000)) /\
  rbind (get_datetime (VInt 1541121934796)) spark_hour
  = Ok (VInt (1541121934796 / 3600000 mod 24)) /\
  rbind (get_datetime (VInt 1541121934796)) spark_hour = Ok (VInt 1).
Proof.
  assert (H : 0 <= 1541121934796 < 2 ^ 41) by lia.
  split; [exact H|]. exact (start_time_keeps_milliseconds 1541121934796 H).
Defined.

(** ** C4 *)

(** C4 (code_bug). On every catalog read with [song_schema], the artists
    projection of line 68 raises: it names [artist_lattitude], which the
    schema (with [artist_latitude]) does not have. *)
Theorem artists_table_unresolved (files : list json) (df : frame) :
  read_json_schema song_schema files = Ok df ->
  artists_table_of df = Raise (AnalysisException "cannot resolve 'artist_lattitude'").
Proof. apply artists_table_of_song_schema. Qed.

Lemma artists_table_unresolved_witness :
  exists df, read_json_schema song_schema [sample_song] = Ok df /\
  artists_table_of df = Raise (AnalysisException "cannot resolve 'artist_lattitude'").
Proof.
  eexists. split; [reflexivity|].
  apply (artists_table_unresolved [sample_song]). reflexivity.
Defined.

(** ** C5 *)

(** C5 (code_bug). The users projection of line 96 names [userdId]; on a
    log without such a field (the log field is [userId], as line 130 uses)
    it raises instead of producing the users table. *)
Theorem users_table_unresolved (df : frame) :
  positions (schema df) "userdId" 0 = [] ->
  users_table_of df = Raise (AnalysisException "cannot resolve 'userdId'").
Proof.
  intros H.
  assert (Hp : rmapM parse_expr user_cols
               = Ok [("userdId", Some "user_id"); ("firstName", Some "first_name");
                     ("lastName", Some "last_name"); ("gender", None);
                     ("level", None)]) by reflexivity.
  unfold users_table_of, selectExpr. rewrite Hp. unfold select_alias.
  cbn [rmapM fst rbind]. unfold resolve at 1. rewrite H. reflexivity.
Qed.

Lemma users_table_unresolved_witness :
  exists df, log_events sample_logs = Ok df /\
  positions (schema df) "userdId" 0 = [] /\
  users_table_of df = Raise (AnalysisException "cannot resolve 'userdId'").
Proof.
  assert (H : exists df, log_events sample_logs = Ok df /\
              positions (schema df) "userdId" 0 = [])
    by (eexists; split; vm_compute; reflexivity).
  destruct H as [df [Hd Hp]]. exists df. split; [exact Hd|]. split; [exact Hp|].
  now apply users_table_unresolved.
Defined.

(** ** C7 *)

(** C7. Whatever the input and whatever the output store held before, an
    artists, users or time table that a run of [process_song_data] or
    [process_log_data] newly writes has pairwise distinct rows. *)
Theorem dimension_tables_distinct (inp : inputs) (out k : string) (st : store)
  (t : table) :
  In k [out ++ "artists/"; out ++ "users/"; path_join out "time/"] ->
  stored st k = None ->
  stored (fst (process_song_data inp out st)) k = Some t \/
  stored (fst (process_log_data inp out st)) k = Some t ->
  ForallOrdPairs (fun a b => row_eqb a b = false) (t_rows t).
Proof.
  intros Hk Hnone [Hs|Hl].
  - exfalso.
    assert (Hne : k <> out ++ "songs/").
    { destruct Hk as [<-|[<-|[<-|[]]]].
      - apply append_neq. discriminate.
      - apply append_neq. discriminate.
      - apply time_path_neq; [reflexivity|]. discriminate. }
    destruct (process_song_data_raises inp out st) as [e [E|[df [s [_ [_ E]]]]]];
      rewrite E in Hs; cbn [fst] in Hs.
    + congruence.
    + rewrite write_stored_other in Hs by exact Hne. congruence.
  - destruct (process_log_data_store inp out st) as [E|[df [u [_ [Hu E]]]]];
      rewrite E in Hl; [congruence|].
    destruct (string_dec k (out ++ "users/")) as [->|Hne].
    + destruct (write_stored_same _ _ _ _ _ _ Hl) as [H|[_ Hr]]; [congruence|].
      exact (users_rows_distinct df u _ Hu Hr).
    + rewrite write_stored_other in Hl by exact Hne. congruence.
Qed.

(** Two [NextPage] events of the same user: the users table holds one
    row. *)
Definition repeat_user_inputs : inputs :=
  mkInputs [] [log_event_userdId "NextPage" 12 1541121935000;
               log_event_userdId "NextPage" 12 1541121936000].

Lemma dimension_tables_distinct_witness :
  In (output_data ++ "users/")
     [output_data ++ "artists/"; output_data ++ "users/"; path_join output_data "time/"] /\
  stored [] (output_data ++ "users/") = None /\
  (stored (fst (process_song_data repeat_user_inputs output_data [])) (output_data ++ "users/")
   = Some (mkTable ["user_id"; "first_name"; "last_name"; "gender"; "level"] [user12_row] []) \/
   stored (fst (process_log_data repeat_user_inputs output_data [])) (output_data ++ "users/")
   = Some (mkTable ["user_id"; "first_name"; "last_name"; "gender"; "level"] [user12_row] [])) /\
  ForallOrdPairs (fun a b => row_eqb a b = false)
    (t_rows (mkTable ["user_id"; "first_name"; "last_name"; "gender"; "level"] [user12_row] [])).
Proof.
  assert (H1 : In (output_data ++ "users/")
     [output_data ++ "artists/"; output_data ++ "users/"; path_join output_data "time/"])
    by (right; left; reflexivity).
  assert (H2 : stored [] (output_data ++ "users/") = None) by reflexivity.
  assert (H3 : stored (fst (process_song_data repeat_user_inputs output_data []))
                 (output_data ++ "users/")
               = Some (mkTable ["user_id"; "first_name"; "last_name"; "gender"; "level"]
                         [user12_row] []) \/
               stored (fst (process_log_data repeat_user_inputs output_data []))
                 (output_data ++ "users/")
               = Some (mkTable ["user_id"; "first_name"; "last_name"; "gender"; "level"]
                         [user12_row] []))
    by (right; vm_compute; reflexivity).
  split; [exact H1|]. split; [exact H2|]. split; [exact H3|].
  exact (dimension_tables_distinct repeat_user_inputs output_data _ [] _ H1 H2 H3).
Defined.

(** ** C8 *)

(** C8 (code_bug). The songs table is written in the default
    [errorifexists] mode (only the time table uses ['overwrite']): after a
    first run over a non-empty catalog, a rerun over the same input raises
    at the songs write. *)
Theorem rerun_raises_on_songs_write (inp : inputs) :
  song_files inp <> [] ->
  snd (main inp (fst (main inp [])))
  = Raise (AnalysisException ("path " ++ output_data ++ "songs/" ++ " already exists.")).
Proof.
  intros Hne.
  destruct (main_first_run inp) as [[Hf _]|[_ [t E]]]; [contradiction|].
  rewrite E. cbn [fst].
  destruct inp as [songs logs]. cbn [song_files] in *.
  destruct songs as [|f fs]; [contradiction|].
  unfold main, process_song_data, bind, lift. cbn. reflexivity.
Qed.

Lemma rerun_raises_on_songs_write_witness :
  song_files sample_inputs <> [] /\
  snd (main sample_inputs (fst (main sample_inputs [])))
  = Raise (AnalysisException ("path " ++ output_data ++ "songs/" ++ " already exists.")).
Proof.
  split; [discriminate|].
  apply rerun_raises_on_songs_write. discriminate.
Defined.

End EtlProofs.

Module EtlExtra.
Import Etl EtlProofs.

(** ** The songs table *)




(** ** The attribute [df.page] *)

Lemma in_insert_sorted (x y : string) (l : list string) :
  In y (insert_sorted x l) -> y = x \/ In y l.
Proof.
  induction l as [|z l IH]; cbn; [intuition|].
  destruct (String.ltb x z); cbn; [intuition|].
  intros [H|H]; [right; now left|]. destruct (IH H); [now left|right; now right].
Qed.

Lemma in_sort_strings (l : list string) (y : string) :
  In y (sort_strings l) -> In y l.
Proof.
  induction l as [|x l IH]; cbn; [easy|].
  intros H. destruct (in_insert_sorted _ _ _ H) as [->|H']; [now left|].
  right. now apply IH.
Qed.

Lemma in_nub_strings (l : list string) (x : string) : In x (nub_strings l) -> In x l.
Proof.
  induction l as [|y l IH]; cbn; [easy|]. intros [H|H]; [now left|].
  apply filter_In in H. right. apply IH, H.
Qed.

(** Every column of an inferred-schema read is a key of some record. *)
Lemma read_json_columns (files : list json) (df : frame) (x : string) :
  read_json files = Ok df -> In x (schema df) ->
  exists o, In o files /\ In x (map fst o).
Proof.
  unfold read_json. destruct files as [|f fs]; [discriminate|].
  destruct (_ || _); [discriminate|]. intros H. inversion H; subst df. cbn [schema].
  intros Hx. apply in_sort_strings, in_nub_strings in Hx.
  change (In x (flat_map (map fst) (f :: fs))) in Hx. apply in_flat_map in Hx.
  destruct Hx as [o [Ho Hx]]. now exists o.
Qed.

(** When the log is read and no record has a key spelled exactly [page],
    the attribute access [df.page] of line 93 raises [AttributeError]
    ([DataFrame.__getattr__] checks [df.columns] case-sensitively), and
    [process_log_data] writes nothing. *)
Theorem process_log_data_no_page_field (inp : inputs) (out : string) (st : store)
  (df : frame) :
  read_json (log_files inp) = Ok df ->
  (forall o, In o (log_files inp) -> ~ In "page" (map fst o)) ->
  process_log_data inp out st
  = (st, Raise (AttributeError "'DataFrame' object has no attribute 'page'")).
Proof.
  intros Hr H.
  assert (Hp : existsb (String.eqb "page") (schema df) = false).
  { apply not_true_iff_false. intros He. apply existsb_exists in He.
    destruct He as [x [Hx E]]. apply String.eqb_eq in E. subst x.
    destruct (read_json_columns _ _ _ Hr Hx) as [o [Ho Hk]]. exact (H o Ho Hk). }
  unfold process_log_data, bind, lift, log_events. rewrite Hr. cbn [rbind].
  unfold filter_eq, attr. rewrite Hp. reflexivity.
Qed.

(** A log whose records spell the key [Page]: Spark would resolve [page]
    to it, but the Python attribute access fails. *)
Definition capital_page_logs : list json :=
  [[("Page", JStr "NextPage"); ("ts", JInt 1541121935000); ("userdId", JInt 12)]].

Lemma process_log_data_no_page_field_witness :
  exists df,
  read_json capital_page_logs = Ok df /\
  (forall o, In o capital_page_logs -> ~ In "page" (map fst o)) /\
  process_log_data (mkInputs [] capital_page_logs) output_data []
  = ([], Raise (AttributeError "'DataFrame' object has no attribute 'page'")).
Proof.
  assert (Hd : exists df, read_json capital_page_logs = Ok df)
    by (eexists; vm_compute; reflexivity).
  destruct Hd as [df Hd].
  assert (Hn : forall o, In o capital_page_logs -> ~ In "page" (map fst o)).
  { intros o [<-|[]]. cbn. intros [E|[E|[E|[]]]]; discriminate. }
  exists df. split; [exact Hd|]. split; [exact Hn|].
  exact (process_log_data_no_page_field (mkInputs [] capital_page_logs) output_data [] df Hd Hn).
Defined.

(** ** The [start_time] column *)

Lemma rmapM_ok_map {A B} (f : A -> result B) (g : A -> B) (l : list A) :
  (forall x, In x l -> f x = Ok (g x)) -> rmapM f l = Ok (map g l).
Proof.
  induction l as [|x l IH]; intros H; [reflexivity|]. cbn.
  rewrite (H x (or_introl eq_refl)). cbn.
  rewrite IH; [reflexivity|]. intros y Hy. apply H. now right.
Qed.

(** The [start_time] column (lines 103-104): on a frame with no column
    named [start_time] in any letter case, whose rows all carry an integer
    [ts] in [0, 2^41), it is appended to every row, unchanged in number and
    order, as the instant [ts * 1000] microseconds, i.e. [ts] milliseconds
    after the epoch. *)
Theorem start_time_column (df : frame) (rs : list row) (j : nat) :
  existsb (fun x => name_eqb x "start_time") (schema df) = false ->
  resolve (schema df) "ts" = Ok j ->
  rows df = Ok rs ->
  Forall (fun r => exists ms, nth j r VNull = VInt ms /\ 0 <= ms < 2 ^ 41) rs ->
  withColumn df "start_time" get_datetime "ts"
  = Ok (mkFrame (schema df ++ ["start_time"])%list
          (Ok (map (fun r => (r ++ [match nth j r VNull with
                                    | VInt ms => VTs (ms * 1000)
                                    | _ => VNull
                                    end])%list) rs))).
Proof.
  intros Hp Hj Hr Hall. rewrite (withColumn_append _ _ _ _ j Hj Hp). rewrite Hr.
  cbn [rbind].
  rewrite (rmapM_ok_map _ (fun r => (r, match nth j r VNull with
                                         | VInt ms => VTs (ms * 1000)
                                         | _ => VNull
                                         end))).
  - cbn. rewrite map_map. reflexivity.
  - intros r Hin. rewrite Forall_forall in Hall. destruct (Hall r Hin) as [ms [Hm Hb]].
    rewrite Hm, (get_datetime_exact ms Hb). reflexivity.
Qed.

Lemma start_time_column_witness :
  exists df rs,
  log_events sample_logs = Ok df /\
  existsb (fun x => name_eqb x "start_time") (schema df) = false /\
  resolve (schema df) "ts" = Ok 9%nat /\
  rows df = Ok rs /\
  Forall (fun r => exists ms, nth 9 r VNull = VInt ms /\ 0 <= ms < 2 ^ 41) rs /\
  withColumn df "start_time" get_datetime "ts"
  = Ok (mkFrame (schema df ++ ["start_time"])%list
          (Ok (map (fun r => (r ++ [match nth 9 r VNull with
                                    | VInt ms => VTs (ms * 1000)
                                    | _ => VNull
                                    end])%list) rs))).
Proof.
  assert (H : exists df rs, log_events sample_logs = Ok df /\ rows df = Ok rs)
    by (do 2 eexists; split; vm_compute; reflexivity).
  destruct H as [df [rs [Hd Hr]]].
  assert (H1 : existsb (fun x => name_eqb x "start_time") (schema df) = false)
    by (vm_compute in Hd; inversion Hd; reflexivity).
  assert (H2 : resolve (schema df) "ts" = Ok 9%nat)
    by (vm_compute in Hd; inversion Hd; reflexivity).
  assert (H3 : Forall (fun r => exists ms, nth 9 r VNull = VInt ms /\ 0 <= ms < 2 ^ 41) rs).
  { vm_compute in Hd. inversion Hd; subst df. vm_compute in Hr. inversion Hr; subst rs.
    constructor; [|constructor]. exists 1541121935000. split; [reflexivity|lia]. }
  exists df, rs. split; [exact Hd|]. split; [exact H1|]. split; [exact H2|].
  split; [exact Hr|]. split; [exact H3|].
  exact (start_time_column df rs 9%nat H1 H2 Hr H3).
Defined.

(** ** The whole run *)

(** [main] never completes: for every input and every prior content of the
    output location, the run ends in an exception raised by
    [process_song_data], and [process_log_data] never runs. *)
Theorem main_always_raises (inp : inputs) (st : store) :
  exists e, main inp st = (fst (process_song_data inp output_data st), Raise e).
Proof.
  unfold main, bind at 1.
  destruct (process_song_data_raises inp output_data st) as [e [E|[df [s [_ [_ E]]]]]];
    rewrite E; exists e; reflexivity.
Qed.

(** [process_log_data] changes the output store at the users location at
    most: the time and songplays writes are never reached, and nothing else
    is written. *)
Theorem process_log_data_writes_only_users (inp : inputs) (out k : string)
  (st : store) :
  k <> out ++ "users/" ->
  stored (fst (process_log_data inp out st)) k = stored st k.
Proof.
  intros Hk.
  destruct (process_log_data_store inp out st) as [E|[df [u [_ [_ E]]]]]; rewrite E;
    [reflexivity|].
  now apply write_stored_other.
Qed.

Lemma process_log_data_writes_only_users_witness :
  output_data ++ "songs/" <> output_data ++ "users/" /\
  stored (fst (process_log_data sample_inputs output_data (fst (main sample_inputs []))))
         (output_data ++ "songs/")
  = stored (fst (main sample_inputs [])) (output_data ++ "songs/").
Proof.
  split; [apply append_neq; discriminate|].
  apply process_log_data_writes_only_users. apply append_neq. discriminate.
Defined.

End EtlExtra.
